(* Verification of the fee calculator (src/core/fee_calculator.py), of the
   Kelly position sizer (src/kelly_criterion.py) and of the code that calls
   them: BotConfig.get_fee_tier, the probability-arbitrage detector, the
   backtest simulation and the decision step of bot_v3.

   Numbers: the Python code works on plain numbers (ints and floats); they are
   modelled here as exact rationals [Q], so every statement below is about the
   arithmetic the code writes, read over the rationals.  Float literals such
   as [0.035] become the rationals [35 # 1000].

   State: a [FeeCalculator] object carries two attributes, [volume_30d] and
   [base_fee_rate].  Its methods are written in a small state monad over that
   record, so a method that assigns to [self] changes the state and a method
   that only reads it returns it unchanged.

   Errors: the only operation of these files that can raise on numbers is the
   division [/] of [calculate_kelly_bet] (ZeroDivisionError on a zero
   divisor); it is modelled by [py_div], which returns [None] there. *)

From Stdlib Require Import QArith Qabs Qminmax Lqa Lia Bool List.
Import ListNotations.

Open Scope Q_scope.

(* ------------------------------------------------------------------------- *)
(** * Python number primitives *)

(** Python's [a >= b] on numbers. *)
Definition py_ge (a b : Q) : bool := Qle_bool b a.

(** Python's [a <= b] and [a > b]. *)
Definition py_le (a b : Q) : bool := Qle_bool a b.
Definition py_gt (a b : Q) : bool := negb (Qle_bool a b).

(** Python's builtin [min(a, b)]: the first argument unless the second is
    strictly smaller. *)
Definition py_min (a b : Q) : Q := if Qlt_le_dec b a then b else a.

(** Python's builtin [max(a, b)]: the first argument unless the second is
    strictly larger. *)
Definition py_max (a b : Q) : Q := if Qlt_le_dec a b then b else a.

(** Python's true division [a / b]: raises ZeroDivisionError when [b == 0]. *)
Definition py_div (a b : Q) : option Q :=
  if Qeq_bool b 0 then None else Some (a / b).

(* ------------------------------------------------------------------------- *)
(** * FeeCalculator (src/core/fee_calculator.py) *)

Module Fee.

(** The attributes of a [FeeCalculator] instance. *)
Record FeeCalculator := mkFeeCalculator {
  volume_30d : Q;
  base_fee_rate : Q
}.

(** Methods of the class: they read and write [self]. *)
Definition M (A : Type) : Type := FeeCalculator -> A * FeeCalculator.

Definition ret {A} (a : A) : M A := fun self => (a, self).
Definition bind {A B} (m : M A) (f : A -> M B) : M B :=
  fun self => let (a, self') := m self in f a self'.

Notation "x <- m ;; k" := (bind m (fun x => k))
  (at level 61, m at next level, right associativity).
Notation "m ;;; k" := (bind m (fun _ => k))
  (at level 61, right associativity).

(** Reading [self], [self.volume_30d = v] and [self.base_fee_rate = r]. *)
Definition get_self : M FeeCalculator := fun self => (self, self).
Definition set_volume_30d (v : Q) : M unit :=
  fun self => (tt, mkFeeCalculator v (base_fee_rate self)).
Definition set_base_fee_rate (r : Q) : M unit :=
  fun self => (tt, mkFeeCalculator (volume_30d self) r).

(** [_get_base_fee_rate] (lines 31-40). *)
Definition get_base_fee_rate : M Q :=
  self <- get_self ;;
  ret (if py_ge (volume_30d self) 25000 then 35 # 1000
       else if py_ge (volume_30d self) 10000 then 45 # 1000
       else if py_ge (volume_30d self) 2500 then 55 # 1000
       else 7 # 100).

(** The body of [__init__] (lines 28-29). *)
Definition init_body (volume_30d : Q) : M unit :=
  set_volume_30d volume_30d ;;;
  r <- get_base_fee_rate ;;
  set_base_fee_rate r.

(** [FeeCalculator(volume_30d)]: [__init__] run on a fresh object, whose
    attributes do not exist yet (both are assigned before being read; the
    placeholder values are never observed). *)
Definition new (volume_30d : Q) : FeeCalculator :=
  snd (init_body volume_30d (mkFeeCalculator 0 0)).

(** [update_volume] (lines 163-166). *)
Definition update_volume (new_volume_30d : Q) : M unit :=
  set_volume_30d new_volume_30d ;;;
  r <- get_base_fee_rate ;;
  set_base_fee_rate r.

(** [calculate_trade_fee] (lines 42-65). *)
Definition calculate_trade_fee (price quantity : Q) (is_maker : bool) : M Q :=
  self <- get_self ;;
  let fee_rate := base_fee_rate self in
  let fee_rate := if is_maker then fee_rate * (5 # 10) else fee_rate in
  let max_payout := quantity * 1 in
  let fee := max_payout * fee_rate in
  ret fee.

(** The dict returned by [calculate_round_trip_fee]. *)
Record RoundTripFee := mkRoundTripFee {
  buy_fee : Q;
  sell_fee : Q;
  total_fees : Q;
  fee_rate_buy : Q;
  fee_rate_sell : Q
}.

(** [calculate_round_trip_fee] (lines 67-89). *)
Definition calculate_round_trip_fee (buy_price sell_price quantity : Q)
  : M RoundTripFee :=
  buy_fee <- calculate_trade_fee buy_price quantity false ;;
  sell_fee <- calculate_trade_fee sell_price quantity true ;;
  self <- get_self ;;
  ret (mkRoundTripFee buy_fee sell_fee (buy_fee + sell_fee)
         (base_fee_rate self) (base_fee_rate self * (5 # 10))).

(** The dict returned by [calculate_net_profit]. *)
Record NetProfit := mkNetProfit {
  cost : Q;
  revenue : Q;
  gross_profit : Q;
  fees : Q;
  net_profit : Q;
  fee_breakdown : RoundTripFee
}.

(** [calculate_net_profit] (lines 91-119). *)
Definition calculate_net_profit (buy_price sell_price quantity : Q)
  : M NetProfit :=
  let cost := buy_price * quantity in
  let revenue := sell_price * quantity in
  let gross_profit := revenue - cost in
  fees <- calculate_round_trip_fee buy_price sell_price quantity ;;
  let total_fees := total_fees fees in
  let net_profit := gross_profit - total_fees in
  ret (mkNetProfit cost revenue gross_profit total_fees net_profit fees).

(** The dict returned by [calculate_arbitrage_profit]. *)
Record ArbitrageProfit := mkArbitrageProfit {
  arb_total_cost : Q;
  arb_guaranteed_payout : Q;
  arb_gross_profit : Q;
  arb_total_fees : Q;
  arb_net_profit : Q;
  arb_total_probability : Q;
  arb_deviation_pct : Q;
  arb_is_profitable : bool
}.

(** [calculate_arbitrage_profit] (lines 121-161). *)
Definition calculate_arbitrage_profit (yes_price no_price quantity : Q)
  : M ArbitrageProfit :=
  let total_cost := (yes_price + no_price) * quantity in
  let guaranteed_payout := quantity * 1 in
  yes_fee <- calculate_trade_fee yes_price quantity false ;;
  no_fee <- calculate_trade_fee no_price quantity false ;;
  let total_fees := yes_fee + no_fee in
  let gross_profit := guaranteed_payout - total_cost in
  let net_profit := gross_profit - total_fees in
  let total_probability := yes_price + no_price in
  let deviation := total_probability - 1 in
  ret (mkArbitrageProfit total_cost guaranteed_payout gross_profit total_fees
         net_profit total_probability (deviation * 100) (py_gt net_profit 0)).

(** Running a method on an object: its result and the object afterwards. *)
Definition result {A} (m : M A) (self : FeeCalculator) : A := fst (m self).
Definition state_after {A} (m : M A) (self : FeeCalculator) : FeeCalculator :=
  snd (m self).

End Fee.

(* ------------------------------------------------------------------------- *)
(** * Kelly position sizing (src/kelly_criterion.py) *)

Module Kelly.

(** [calculate_kelly_bet] (lines 6-41); [None] is a raised
    ZeroDivisionError. *)
Definition calculate_kelly_bet (win_probability market_price bankroll
    max_fraction edge : Q) : option Q :=
  if py_le market_price 0 || py_ge market_price 1 then Some 0
  else
    match py_div 1 market_price with
    | None => None
    | Some inv =>
      let odds := inv - 1 in
      match py_div edge odds with
      | None => None
      | Some kelly_fraction =>
        let kelly_fraction := py_min kelly_fraction max_fraction in
        let kelly_fraction := py_max kelly_fraction 0 in
        Some (kelly_fraction * bankroll)
      end
    end.

(** [calculate_win_probability] (lines 44-57). *)
Definition calculate_win_probability (market_price edge : Q) : Q :=
  py_min (market_price + edge) (99 # 100).

(** [get_kelly_fraction] (lines 63-68). *)
Definition get_kelly_fraction (edge market_price max_fraction : Q) : option Q :=
  let win_prob := calculate_win_probability market_price edge in
  calculate_kelly_bet win_prob market_price 1 max_fraction edge.

(** [get_bet_size] (lines 70-73). *)
Definition get_bet_size (edge market_price bankroll max_fraction : Q)
  : option Q :=
  let win_prob := calculate_win_probability market_price edge in
  calculate_kelly_bet win_prob market_price bankroll max_fraction edge.

End Kelly.

(* ------------------------------------------------------------------------- *)
(** * Callers of the calculators *)

(** Python's [int(x)] on a number: truncation toward zero. *)
Definition py_int (x : Q) : Z := Z.quot (Qnum x) (Zpos (Qden x)).

(** [BotConfig.get_fee_tier] (src/bot_config.py, lines 91-101): the fee tier
    in percent, read from the class attribute [VOLUME_30D]. *)
Definition get_fee_tier (VOLUME_30D : Q) : Q :=
  if py_ge VOLUME_30D 25000 then 35 # 10
  else if py_ge VOLUME_30D 10000 then 45 # 10
  else if py_ge VOLUME_30D 2500 then 55 # 10
  else 70 # 10.

(** [ProbabilityArbitrageDetector] (src/strategies/probability_arb.py). *)
Module ProbArb.

(** The attributes the detection uses (the API key and URL are left out). *)
Record Detector := mkDetector {
  min_deviation : Q;
  fee_calc : Fee.FeeCalculator
}.

(** [__init__(min_deviation_pct, volume_30d)] (lines 33-42). *)
Definition new (min_deviation_pct volume_30d : Q) : Detector :=
  mkDetector (min_deviation_pct / 100) (Fee.new volume_30d).

(** An orderbook ask is a [[price_cents, quantity]] pair; [ask[0]] is its
    price.  A side of the orderbook is [None] when the key is missing or
    holds [null]: [orderbook.get(side, [])] is then falsy either way. *)
Record Orderbook := mkOrderbook {
  yes : option (list (Q * Q));
  no : option (list (Q * Q))
}.

(** Python's [min(xs)] on a non-empty list: scan left to right, keeping the
    current item unless a later one is strictly smaller. *)
Definition py_min_list (x : Q) (xs : list Q) : Q := fold_left py_min xs x.

(** A side is falsy when missing, [null] or empty; otherwise its best (lowest)
    ask in dollars. *)
Definition best_ask (side : option (list (Q * Q))) : option Q :=
  match side with
  | None | Some nil => None
  | Some (a :: asks) => Some (py_min_list (fst a) (map fst asks) / 100)
  end.

(** [get_best_prices] (lines 104-116); [None] is the [(None, None)] pair. *)
Definition get_best_prices (orderbook : Orderbook) : option (Q * Q) :=
  match yes orderbook, no orderbook with
  | None, _ | Some nil, _ | _, None | _, Some nil => None
  | _, _ =>
    match best_ask (yes orderbook), best_ask (no orderbook) with
    | Some y, Some n => Some (y, n)
    | _, _ => None
    end
  end.


End ProbArb.

(** [Backtester.simulate_probability_arbitrage] (src/backtest.py), the body
    of its loop over one settled market of the given volume
    (lines 150-176): [Some] the net profit when the market counts as an
    opportunity.  The lot size is Python's [min(100, int(...))] on ints,
    which is [Z.min]. *)
Module Backtest.

Definition simulate_market (fee_calc : Fee.FeeCalculator) (volume : Q)
  : option Q :=
  if py_gt volume 100 then
    let arb_volume := volume * (1 # 100) in
    let quantity := Z.min 100 (py_int (arb_volume / (50 # 100))) in
    if (10 <=? quantity)%Z then
      let yes_price := 51 # 100 in
      let no_price := 51 # 100 in
      let arb := Fee.result
        (Fee.calculate_arbitrage_profit yes_price no_price (inject_Z quantity))
        fee_calc in
      if py_gt (Fee.arb_net_profit arb) 0 then Some (Fee.arb_net_profit arb)
      else None
    else None
  else None.

End Backtest.

(** The sizing and decision step of the trading loop of src/bot_v3.py
    (lines 244-296), once the council and the timing check approved. *)
Module BotV3.

(** The [BotConfig] attributes the step reads. *)
Record Config := mkConfig {
  BANKROLL : Q;
  EDGE : Q;
  MAX_KELLY_FRACTION : Q;
  MIN_NET_PROFIT : Q;
  TARGET_RETURN_PCT : Q;
  MAX_CONSECUTIVE_LOSSES : Z
}.

(** What the step does: place a buy of [n] contracts at [price_cents], skip
    because the net profit is below the minimum, or skip the small position
    (or the tripped breaker). *)
Inductive Decision :=
| Buy (n : Z) (price_cents : Z)
| SkipFees (net_profit : Q)
| SkipSmall.

(** [None] is a raised exception. *)
Definition step (config : Config) (fee_calc : Fee.FeeCalculator) (p : Q)
    (losses : Z) : option Decision :=
  let BANKROLL := BANKROLL config in
  let TARGET_RETURN_PCT := TARGET_RETURN_PCT config / 100 in
  let MIN_NET_PROFIT := MIN_NET_PROFIT config in
  let edge := EDGE config in
  match Kelly.get_kelly_fraction edge p (25 # 100),
        Kelly.get_bet_size edge p BANKROLL (25 # 100) with
  | Some _kelly_fraction, Some bet =>
    let n := if py_gt p 0 then py_int (bet / p) else 0%Z in
    if (0 <? n)%Z && (losses <? MAX_CONSECUTIVE_LOSSES config)%Z then
      let target_sell_price := py_min (p * (1 + TARGET_RETURN_PCT)) (99 # 100) in
      let profit_analysis := Fee.result
        (Fee.calculate_net_profit p target_sell_price (inject_Z n)) fee_calc in
      let net_profit := Fee.net_profit profit_analysis in
      if py_ge net_profit MIN_NET_PROFIT then Some (Buy n (py_int (p * 100)))
      else Some (SkipFees net_profit)
    else Some SkipSmall
  | _, _ => None
  end.

End BotV3.

(* ------------------------------------------------------------------------- *)
(** * Helper lemmas *)

Lemma py_ge_true a b : py_ge a b = true <-> b <= a.
Proof. unfold py_ge. apply Qle_bool_iff. Qed.

Lemma py_ge_false a b : py_ge a b = false <-> a < b.
Proof.
  unfold py_ge. split; intro H.
  - apply Qnot_le_lt. intro H'. apply Qle_bool_iff in H'. congruence.
  - destruct (Qle_bool b a) eqn:E; [|reflexivity].
    apply Qle_bool_iff in E. exfalso. apply (Qlt_not_le _ _ H E).
Qed.

Lemma py_gt_true a b : py_gt a b = true <-> b < a.
Proof.
  unfold py_gt. destruct (Qle_bool a b) eqn:E; simpl.
  - apply Qle_bool_iff in E. split; [discriminate|].
    intro H. exfalso. apply (Qlt_not_le _ _ H E).
  - split; [intros _|reflexivity]. apply Qnot_le_lt. intro H.
    apply Qle_bool_iff in H. congruence.
Qed.

(** Python's [max(min(x, hi), 0)] is the usual clamp of [x] into [[0, hi]]
    when [0 <= hi]. *)
Lemma py_clamp_eq x hi :
  0 <= hi -> py_max (py_min x hi) 0 == Qmax 0 (Qmin x hi).
Proof.
  intro Hhi. unfold py_max, py_min.
  destruct (Qlt_le_dec hi x) as [Hx|Hx].
  - rewrite (Q.min_r x hi) by lra.
    destruct (Qlt_le_dec hi 0); [lra|].
    rewrite Q.max_r by lra. reflexivity.
  - rewrite (Q.min_l x hi) by lra.
    destruct (Qlt_le_dec x 0) as [Hn|Hn].
    + rewrite Q.max_l by lra. reflexivity.
    + rewrite Q.max_r by lra. reflexivity.
Qed.

Lemma inv_gt_1 p : 0 < p -> p < 1 -> 1 < / p.
Proof.
  intros H0 H1. apply Qlt_shift_inv_l; [assumption|]. lra.
Qed.

Ltac unfold_methods :=
  unfold Fee.result, Fee.state_after, Fee.new, Fee.init_body,
    Fee.update_volume, Fee.calculate_arbitrage_profit,
    Fee.calculate_net_profit, Fee.calculate_round_trip_fee,
    Fee.calculate_trade_fee, Fee.get_base_fee_rate, Fee.set_base_fee_rate,
    Fee.set_volume_30d, Fee.get_self, Fee.bind, Fee.ret; cbn.

(** The rate [FeeCalculator(v)] ends up with is [_get_base_fee_rate] read on
    volume [v]. *)
Lemma new_rate v :
  Fee.base_fee_rate (Fee.new v) =
  (if py_ge v 25000 then 35 # 1000
   else if py_ge v 10000 then 45 # 1000
   else if py_ge v 2500 then 55 # 1000
   else 7 # 100).
Proof. unfold_methods. reflexivity. Qed.

Lemma new_rate_nonneg v : 0 <= Fee.base_fee_rate (Fee.new v).
Proof.
  rewrite new_rate.
  destruct (py_ge v 25000), (py_ge v 10000), (py_ge v 2500);
  unfold Qle; simpl; lia.
Qed.

(* ------------------------------------------------------------------------- *)
(** * FeeCalculator: tiers, fees and profit *)

(** C1: the base fee rate fixed by [FeeCalculator(volume_30d)] is a step
    function of the volume with inclusive lower bounds: 0.035 from 25000 on,
    0.045 on [10000, 25000), 0.055 on [2500, 10000) and 0.07 below 2500,
    negative volumes included. *)
Theorem fee_rate_tiers (v : Q) :
  (25000 <= v -> Fee.base_fee_rate (Fee.new v) = 35 # 1000) /\
  (10000 <= v < 25000 -> Fee.base_fee_rate (Fee.new v) = 45 # 1000) /\
  (2500 <= v < 10000 -> Fee.base_fee_rate (Fee.new v) = 55 # 1000) /\
  (v < 2500 -> Fee.base_fee_rate (Fee.new v) = 7 # 100).
Proof.
  rewrite new_rate.
  repeat split; intros;
  repeat match goal with
  | |- context [py_ge v ?b] =>
      let E := fresh "E" in
      destruct (py_ge v b) eqn:E;
      [apply py_ge_true in E | apply py_ge_false in E]
  end; first [reflexivity | lra].
Qed.

Lemma fee_rate_tiers_witness :
  Fee.base_fee_rate (Fee.new 30000) = 35 # 1000 /\
  Fee.base_fee_rate (Fee.new 10000) = 45 # 1000 /\
  Fee.base_fee_rate (Fee.new 2500) = 55 # 1000 /\
  Fee.base_fee_rate (Fee.new (-5)) = 7 # 100.
Proof.
  split; [apply (proj1 (fee_rate_tiers 30000)); vm_compute; discriminate|].
  split; [apply (proj1 (proj2 (fee_rate_tiers 10000)));
          split; vm_compute; first [discriminate | reflexivity]|].
  split; [apply (proj1 (proj2 (proj2 (fee_rate_tiers 2500))));
          split; vm_compute; first [discriminate | reflexivity]|].
  apply (proj2 (proj2 (proj2 (fee_rate_tiers (-5))))). reflexivity.
Defined.

(** C3: [calculate_trade_fee] is [(quantity * 1.00) * effective_rate], the
    effective rate being the base rate, halved for a maker; the price
    argument plays no part, so two calls that differ only in the price
    return the same fee. *)
Theorem trade_fee_on_payout (self : Fee.FeeCalculator) (price price' quantity : Q)
    (is_maker : bool) :
  Fee.result (Fee.calculate_trade_fee price quantity is_maker) self =
    (quantity * 1) *
    (if is_maker then Fee.base_fee_rate self * (5 # 10)
     else Fee.base_fee_rate self) /\
  Fee.result (Fee.calculate_trade_fee price quantity is_maker) self =
    Fee.result (Fee.calculate_trade_fee price' quantity is_maker) self.
Proof. unfold_methods. split; reflexivity. Qed.

(** C4: [calculate_net_profit] returns cost [buy_price * quantity], revenue
    [sell_price * quantity], gross profit [revenue - cost], which equals
    [(sell_price - buy_price) * quantity], and net profit
    [gross_profit - total_fees]; the fees are those of
    [calculate_round_trip_fee], whose buy leg is a taker trade fee (full rate)
    and whose sell leg is a maker trade fee (half rate). *)
Theorem net_profit_breakdown (self : Fee.FeeCalculator)
    (buy_price sell_price quantity : Q) :
  let r := Fee.result (Fee.calculate_net_profit buy_price sell_price quantity)
             self in
  Fee.cost r = buy_price * quantity /\
  Fee.revenue r = sell_price * quantity /\
  Fee.gross_profit r = Fee.revenue r - Fee.cost r /\
  Fee.gross_profit r == (sell_price - buy_price) * quantity /\
  Fee.net_profit r = Fee.gross_profit r - Fee.fees r /\
  Fee.fees r = Fee.total_fees (Fee.fee_breakdown r) /\
  Fee.total_fees (Fee.fee_breakdown r) =
    Fee.buy_fee (Fee.fee_breakdown r) + Fee.sell_fee (Fee.fee_breakdown r) /\
  Fee.buy_fee (Fee.fee_breakdown r) =
    Fee.result (Fee.calculate_trade_fee buy_price quantity false) self /\
  Fee.sell_fee (Fee.fee_breakdown r) =
    Fee.result (Fee.calculate_trade_fee sell_price quantity true) self /\
  Fee.buy_fee (Fee.fee_breakdown r) = (quantity * 1) * Fee.base_fee_rate self /\
  Fee.sell_fee (Fee.fee_breakdown r) =
    (quantity * 1) * (Fee.base_fee_rate self * (5 # 10)).
Proof.
  unfold_methods.
  repeat split; try reflexivity. ring.
Qed.

(** C5: [calculate_arbitrage_profit] pays out exactly [quantity * 1.00],
    whatever the two prices; both legs are charged the taker trade fee; the
    total probability is [yes_price + no_price], the deviation is
    [(total_probability - 1.0) * 100], the net profit is
    [(guaranteed_payout - total_cost) - total_fees], and [is_profitable]
    holds exactly when the net profit is positive.  (Proved for all inputs,
    not only non-negative ones.) *)
Theorem arbitrage_profit_fields (self : Fee.FeeCalculator)
    (yes_price no_price yes_price' no_price' quantity : Q) :
  let r := Fee.result (Fee.calculate_arbitrage_profit yes_price no_price
                         quantity) self in
  Fee.arb_guaranteed_payout r = quantity * 1 /\
  Fee.arb_guaranteed_payout r ==  quantity /\
  Fee.arb_guaranteed_payout r =
    Fee.arb_guaranteed_payout
      (Fee.result (Fee.calculate_arbitrage_profit yes_price' no_price'
                     quantity) self) /\
  Fee.arb_total_cost r = (yes_price + no_price) * quantity /\
  Fee.arb_total_fees r =
    Fee.result (Fee.calculate_trade_fee yes_price quantity false) self +
    Fee.result (Fee.calculate_trade_fee no_price quantity false) self /\
  Fee.arb_total_fees r =
    (quantity * 1) * Fee.base_fee_rate self +
    (quantity * 1) * Fee.base_fee_rate self /\
  Fee.arb_total_probability r = yes_price + no_price /\
  Fee.arb_deviation_pct r = (Fee.arb_total_probability r - 1) * 100 /\
  Fee.arb_gross_profit r =
    Fee.arb_guaranteed_payout r - Fee.arb_total_cost r /\
  Fee.arb_net_profit r = Fee.arb_gross_profit r - Fee.arb_total_fees r /\
  (Fee.arb_is_profitable r = true <-> 0 < Fee.arb_net_profit r).
Proof.
  unfold_methods.
  repeat split; try reflexivity; try ring;
  intro H; apply py_gt_true; assumption.
Qed.

(** C6: the maker fee is exactly half the taker fee, for every object, price
    and quantity (proved without restricting the price to (0,1) or the
    quantity to be non-negative), and the base rate of every calculator
    [FeeCalculator(v)], as well as every calculator after
    [update_volume(v)], is non-negative, as is its maker rate. *)
Theorem maker_fee_half_taker (self : Fee.FeeCalculator) (v price quantity : Q) :
  Fee.result (Fee.calculate_trade_fee price quantity true) self ==
    (5 # 10) * Fee.result (Fee.calculate_trade_fee price quantity false) self /\
  0 <= Fee.base_fee_rate (Fee.new v) /\
  0 <= Fee.base_fee_rate (Fee.new v) * (5 # 10) /\
  0 <= Fee.base_fee_rate (Fee.state_after (Fee.update_volume v) self).
Proof.
  pose proof (new_rate_nonneg v) as Hn.
  split; [unfold_methods; ring|].
  split; [exact Hn|].
  split; [lra|].
  replace (Fee.state_after (Fee.update_volume v) self) with (Fee.new v)
    by (unfold_methods; reflexivity).
  exact Hn.
Qed.

(** C7: over exact rationals, [FeeCalculator(volume_30d=0)] has base rate
    0.07, and [calculate_net_profit(0.45, 0.50, 10)] gives buy fee 0.70,
    sell fee 0.35 (maker, half rate), gross profit 0.50 and net profit
    -0.55. *)
Theorem fee_example_scenario :
  let calc := Fee.new 0 in
  let r := Fee.result (Fee.calculate_net_profit (45 # 100) (50 # 100) 10) calc in
  Fee.base_fee_rate calc == 7 # 100 /\
  Fee.buy_fee (Fee.fee_breakdown r) == 70 # 100 /\
  Fee.sell_fee (Fee.fee_breakdown r) == 35 # 100 /\
  Fee.gross_profit r == 50 # 100 /\
  Fee.net_profit r == - (55 # 100).
Proof. vm_compute. repeat split; reflexivity. Qed.

(** The state invariant of a [FeeCalculator]: its rate is the one
    [_get_base_fee_rate] derives from its volume. *)
Definition rate_invariant (self : Fee.FeeCalculator) : Prop :=
  Fee.base_fee_rate self = Fee.result Fee.get_base_fee_rate self.

(** C9: [update_volume(v)] leaves any object in exactly the state of a fresh
    [FeeCalculator(v)]: volume [v] and the tier rate of [v]; the invariant
    [base_fee_rate == tier(volume_30d)] holds after construction and after
    [update_volume]; the other methods leave the object unchanged. *)
Theorem update_volume_reinitialises (self : Fee.FeeCalculator)
    (v p1 p2 q : Q) (is_maker : bool) :
  Fee.state_after (Fee.update_volume v) self = Fee.new v /\
  Fee.volume_30d (Fee.new v) = v /\
  Fee.base_fee_rate (Fee.new v) =
    Fee.result Fee.get_base_fee_rate (Fee.mkFeeCalculator v 0) /\
  rate_invariant (Fee.new v) /\
  rate_invariant (Fee.state_after (Fee.update_volume v) self) /\
  Fee.state_after Fee.get_base_fee_rate self = self /\
  Fee.state_after (Fee.calculate_trade_fee p1 q is_maker) self = self /\
  Fee.state_after (Fee.calculate_round_trip_fee p1 p2 q) self = self /\
  Fee.state_after (Fee.calculate_net_profit p1 p2 q) self = self /\
  Fee.state_after (Fee.calculate_arbitrage_profit p1 p2 q) self = self.
Proof.
  unfold rate_invariant. destruct self.
  unfold_methods. repeat split; reflexivity.
Qed.

(* ------------------------------------------------------------------------- *)
(** * Kelly sizing *)

Lemma kelly_out_of_interval w p b mf e :
  p <= 0 \/ 1 <= p -> Kelly.calculate_kelly_bet w p b mf e = Some 0.
Proof.
  intro H. unfold Kelly.calculate_kelly_bet.
  replace (py_le p 0 || py_ge p 1) with true; [reflexivity|].
  symmetry. apply orb_true_iff.
  destruct H as [H|H]; [left; apply Qle_bool_iff | right; apply py_ge_true];
  exact H.
Qed.

Lemma kelly_in_interval w p b mf e :
  0 < p -> p < 1 ->
  Kelly.calculate_kelly_bet w p b mf e =
    Some (py_max (py_min (e / (1 / p - 1)) mf) 0 * b).
Proof.
  intros H0 H1. unfold Kelly.calculate_kelly_bet.
  assert (Hle : py_le p 0 = false).
  { unfold py_le. destruct (Qle_bool p 0) eqn:E; [|reflexivity].
    apply Qle_bool_iff in E. lra. }
  assert (Hge : py_ge p 1 = false) by (apply py_ge_false; exact H1).
  rewrite Hle, Hge. simpl.
  unfold py_div.
  destruct (Qeq_bool p 0) eqn:E1.
  { apply Qeq_bool_iff in E1. lra. }
  pose proof (inv_gt_1 p H0 H1) as Hinv.
  destruct (Qeq_bool (1 / p - 1) 0) eqn:E2.
  { apply Qeq_bool_iff in E2. unfold Qdiv in E2.
    rewrite Qmult_1_l in E2. lra. }
  reflexivity.
Qed.

Lemma clamp_bounds x hi :
  0 <= hi -> 0 <= Qmax 0 (Qmin x hi) /\ Qmax 0 (Qmin x hi) <= hi.
Proof.
  intro H. split.
  - apply Q.le_max_l.
  - apply Q.max_lub; [exact H | apply Q.le_min_r].
Qed.

Lemma kelly_bet_bounds w p b mf e r :
  0 <= b -> 0 <= mf ->
  Kelly.calculate_kelly_bet w p b mf e = Some r -> 0 <= r /\ r <= mf * b.
Proof.
  intros Hb Hmf Hr.
  destruct (Qlt_le_dec 0 p) as [H0|H0]; [destruct (Qlt_le_dec p 1) as [H1|H1]|].
  - rewrite kelly_in_interval in Hr by assumption. injection Hr as <-.
    rewrite py_clamp_eq by exact Hmf.
    destruct (clamp_bounds (e / (1 / p - 1)) mf Hmf) as [Hl Hu].
    split.
    + apply Qmult_le_0_compat; assumption.
    + apply Qmult_le_compat_r; assumption.
  - rewrite kelly_out_of_interval in Hr by (right; exact H1).
    injection Hr as <-. split; [lra|]. apply Qmult_le_0_compat; assumption.
  - rewrite kelly_out_of_interval in Hr by (left; exact H0).
    injection Hr as <-. split; [lra|]. apply Qmult_le_0_compat; assumption.
Qed.

(** C2: for [bankroll >= 0] and [max_fraction >= 0], [calculate_kelly_bet]
    returns exactly 0, without raising, when [market_price <= 0] or
    [market_price >= 1]; otherwise it returns [k * bankroll] with [k] the
    quotient [edge / ((1/price) - 1)] clamped into [[0, max_fraction]]; in
    every case the result lies in [[0, max_fraction * bankroll]]. *)
Theorem kelly_bet_clamped (win_probability price bankroll max_fraction edge : Q)
    (Hb : 0 <= bankroll) (Hmf : 0 <= max_fraction) :
  ((price <= 0 \/ 1 <= price) ->
   Kelly.calculate_kelly_bet win_probability price bankroll max_fraction edge
   = Some 0) /\
  (0 < price < 1 ->
   exists k,
     Kelly.calculate_kelly_bet win_probability price bankroll max_fraction edge
       = Some (k * bankroll) /\
     k == Qmax 0 (Qmin (edge / (1 / price - 1)) max_fraction) /\
     0 <= k <= max_fraction) /\
  (exists r,
     Kelly.calculate_kelly_bet win_probability price bankroll max_fraction edge
       = Some r /\ 0 <= r <= max_fraction * bankroll).
Proof.
  split; [apply kelly_out_of_interval|].
  split.
  - intros [H0 H1].
    exists (py_max (py_min (edge / (1 / price - 1)) max_fraction) 0).
    rewrite kelly_in_interval by assumption.
    split; [reflexivity|]. split; [apply py_clamp_eq; exact Hmf|].
    rewrite py_clamp_eq by exact Hmf.
    apply clamp_bounds. exact Hmf.
  - destruct (Qlt_le_dec 0 price) as [H0|H0];
      [destruct (Qlt_le_dec price 1) as [H1|H1]|].
    + eexists. split; [apply kelly_in_interval; assumption|].
      apply (kelly_bet_bounds win_probability price bankroll max_fraction edge);
        [exact Hb | exact Hmf |].
      apply kelly_in_interval; assumption.
    + eexists. split; [apply kelly_out_of_interval; right; exact H1|].
      apply (kelly_bet_bounds win_probability price bankroll max_fraction edge);
        [exact Hb | exact Hmf |].
      apply kelly_out_of_interval; right; exact H1.
    + eexists. split; [apply kelly_out_of_interval; left; exact H0|].
      apply (kelly_bet_bounds win_probability price bankroll max_fraction edge);
        [exact Hb | exact Hmf |].
      apply kelly_out_of_interval; left; exact H0.
Qed.

Lemma kelly_bet_clamped_witness :
  0 <= 1000 /\ 0 <= 1 # 4 /\
  (exists k,
     Kelly.calculate_kelly_bet (55 # 100) (1 # 2) 1000 (1 # 4) (5 # 100)
       = Some (k * 1000) /\
     k == Qmax 0 (Qmin ((5 # 100) / (1 / (1 # 2) - 1)) (1 # 4)) /\
     0 <= k <= 1 # 4).
Proof.
  split; [discriminate|]. split; [discriminate|].
  apply (kelly_bet_clamped (55 # 100) (1 # 2) 1000 (1 # 4) (5 # 100));
    [discriminate | discriminate | split; reflexivity].
Defined.

Lemma kelly_total w p b mf e :
  exists r, Kelly.calculate_kelly_bet w p b mf e = Some r.
Proof.
  destruct (Qlt_le_dec 0 p) as [H0|H0];
    [destruct (Qlt_le_dec p 1) as [H1|H1]|].
  - eexists. apply kelly_in_interval; assumption.
  - eexists. apply kelly_out_of_interval. right. exact H1.
  - eexists. apply kelly_out_of_interval. left. exact H0.
Qed.

(** C8: no operation raises on numeric input.  The FeeCalculator methods are
    written in the state monad [Fee.M], which has no failure: they consist of
    comparisons, additions and multiplications only.  [calculate_kelly_bet]
    never reaches a zero divisor (it returns [Some _] on every input:
    negative prices, prices above 1, any edge, bankroll and cap), it returns
    0 for a price outside (0,1), and a volume below 2500 (negative included)
    gives the highest rate 0.07, both at construction and after
    [update_volume]. *)
Theorem operations_total_with_safe_defaults :
  (forall win_probability price bankroll max_fraction edge,
     exists r, Kelly.calculate_kelly_bet win_probability price bankroll
                 max_fraction edge = Some r) /\
  (forall win_probability price bankroll max_fraction edge,
     price <= 0 \/ 1 <= price ->
     Kelly.calculate_kelly_bet win_probability price bankroll max_fraction edge
       = Some 0) /\
  (forall v, v < 2500 -> Fee.base_fee_rate (Fee.new v) = 7 # 100) /\
  (forall self v, v < 2500 ->
     Fee.base_fee_rate (Fee.state_after (Fee.update_volume v) self) = 7 # 100).
Proof.
  split; [exact kelly_total|].
  split; [exact kelly_out_of_interval|].
  assert (Hlow : forall v, v < 2500 -> Fee.base_fee_rate (Fee.new v) = 7 # 100).
  { intros v Hv. rewrite new_rate.
    replace (py_ge v 25000) with false
      by (symmetry; apply py_ge_false; lra).
    replace (py_ge v 10000) with false
      by (symmetry; apply py_ge_false; lra).
    replace (py_ge v 2500) with false
      by (symmetry; apply py_ge_false; lra).
    reflexivity. }
  split; [exact Hlow|].
  intros self v Hv.
  replace (Fee.state_after (Fee.update_volume v) self) with (Fee.new v)
    by (unfold_methods; reflexivity).
  apply Hlow. exact Hv.
Qed.

Lemma operations_total_with_safe_defaults_witness :
  Kelly.calculate_kelly_bet (1 # 2) (-3) 1000 (1 # 4) (5 # 100) = Some 0 /\
  Kelly.calculate_kelly_bet (1 # 2) 2 1000 (1 # 4) (5 # 100) = Some 0 /\
  Fee.base_fee_rate (Fee.new (-100)) = 7 # 100 /\
  Fee.base_fee_rate
    (Fee.state_after (Fee.update_volume (-100)) (Fee.new 30000)) = 7 # 100.
Proof.
  destruct operations_total_with_safe_defaults as [_ [Hk [Hn Hu]]].
  split; [apply Hk; left; vm_compute; discriminate|].
  split; [apply Hk; right; vm_compute; discriminate|].
  split; [apply Hn; reflexivity|].
  apply Hu. reflexivity.
Defined.

(** C10: the [win_probability] argument of [calculate_kelly_bet] has no
    influence on its result, so the win probability the wrappers
    [get_bet_size] and [get_kelly_fraction] compute is never used: they
    return what [calculate_kelly_bet] returns for any win probability. *)
Theorem kelly_ignores_win_probability (w1 w2 price bankroll max_fraction edge : Q) :
  Kelly.calculate_kelly_bet w1 price bankroll max_fraction edge =
    Kelly.calculate_kelly_bet w2 price bankroll max_fraction edge /\
  Kelly.get_bet_size edge price bankroll max_fraction =
    Kelly.calculate_kelly_bet w1 price bankroll max_fraction edge /\
  Kelly.get_kelly_fraction edge price max_fraction =
    Kelly.calculate_kelly_bet w1 price 1 max_fraction edge.
Proof.
  unfold Kelly.get_bet_size, Kelly.get_kelly_fraction, Kelly.calculate_kelly_bet.
  repeat split; reflexivity.
Qed.

(* ------------------------------------------------------------------------- *)
(** * Further properties of the Kelly sizer *)

Lemma py_min_mono_l x1 x2 m : x1 <= x2 -> py_min x1 m <= py_min x2 m.
Proof.
  intro H. unfold py_min.
  destruct (Qlt_le_dec m x1), (Qlt_le_dec m x2); lra.
Qed.

Lemma py_max_mono_l x1 x2 m : x1 <= x2 -> py_max x1 m <= py_max x2 m.
Proof.
  intro H. unfold py_max.
  destruct (Qlt_le_dec x1 m), (Qlt_le_dec x2 m); lra.
Qed.

Lemma py_min_spec a b : py_min a b == Qmin a b.
Proof.
  unfold py_min. destruct (Qlt_le_dec b a).
  - rewrite Q.min_r by lra. reflexivity.
  - rewrite Q.min_l by lra. reflexivity.
Qed.

Lemma odds_pos p : 0 < p -> p < 1 -> 0 < 1 / p - 1.
Proof.
  intros H0 H1. pose proof (inv_gt_1 p H0 H1) as H.
  unfold Qdiv. rewrite Qmult_1_l. lra.
Qed.

(** [get_kelly_fraction] (the bet on a bankroll of 1) is always a fraction in
    [[0, max_fraction]] when [max_fraction >= 0]. *)
Theorem kelly_fraction_bounded (edge market_price max_fraction : Q) :
  0 <= max_fraction ->
  exists k, Kelly.get_kelly_fraction edge market_price max_fraction = Some k /\
    0 <= k <= max_fraction.
Proof.
  intro Hmf. unfold Kelly.get_kelly_fraction.
  destruct (kelly_total (Kelly.calculate_win_probability market_price edge)
              market_price 1 max_fraction edge) as [r Hr].
  exists r. split; [exact Hr|].
  destruct (kelly_bet_bounds (Kelly.calculate_win_probability market_price edge)
              market_price 1 max_fraction edge r ltac:(lra) Hmf Hr).
  split; [assumption|]. rewrite Qmult_1_r in *. assumption.
Qed.

Lemma kelly_fraction_bounded_witness :
  0 <= 1 # 4 /\
  exists k, Kelly.get_kelly_fraction (5 # 100) (1 # 2) (1 # 4) = Some k /\
    0 <= k <= 1 # 4.
Proof.
  split; [discriminate|].
  apply kelly_fraction_bounded. discriminate.
Defined.

(** [get_bet_size] is [get_kelly_fraction] scaled by the bankroll. *)
Theorem bet_size_scales_fraction (edge market_price bankroll max_fraction : Q) :
  exists k r,
    Kelly.get_kelly_fraction edge market_price max_fraction = Some k /\
    Kelly.get_bet_size edge market_price bankroll max_fraction = Some r /\
    r == k * bankroll.
Proof.
  unfold Kelly.get_kelly_fraction, Kelly.get_bet_size.
  set (w := Kelly.calculate_win_probability market_price edge).
  destruct (Qlt_le_dec 0 market_price) as [H0|H0];
    [destruct (Qlt_le_dec market_price 1) as [H1|H1]|].
  - rewrite !kelly_in_interval by assumption.
    do 2 eexists. split; [reflexivity|]. split; [reflexivity|]. ring.
  - rewrite !kelly_out_of_interval by (right; exact H1).
    do 2 eexists. split; [reflexivity|]. split; [reflexivity|]. ring.
  - rewrite !kelly_out_of_interval by (left; exact H0).
    do 2 eexists. split; [reflexivity|]. split; [reflexivity|]. ring.
Qed.

(** The Kelly bet never decreases when the edge grows (non-negative
    bankroll, any cap). *)
Theorem kelly_bet_monotone_in_edge (w price bankroll max_fraction e1 e2 : Q) :
  0 <= bankroll -> e1 <= e2 ->
  exists r1 r2,
    Kelly.calculate_kelly_bet w price bankroll max_fraction e1 = Some r1 /\
    Kelly.calculate_kelly_bet w price bankroll max_fraction e2 = Some r2 /\
    r1 <= r2.
Proof.
  intros Hb He.
  destruct (Qlt_le_dec 0 price) as [H0|H0];
    [destruct (Qlt_le_dec price 1) as [H1|H1]|].
  - rewrite !kelly_in_interval by assumption.
    do 2 eexists. split; [reflexivity|]. split; [reflexivity|].
    apply Qmult_le_compat_r; [|exact Hb].
    apply py_max_mono_l, py_min_mono_l.
    unfold Qdiv. apply Qmult_le_compat_r; [exact He|].
    apply Qlt_le_weak, Qinv_lt_0_compat, odds_pos; assumption.
  - rewrite !kelly_out_of_interval by (right; exact H1).
    do 2 eexists. split; [reflexivity|]. split; [reflexivity|]. lra.
  - rewrite !kelly_out_of_interval by (left; exact H0).
    do 2 eexists. split; [reflexivity|]. split; [reflexivity|]. lra.
Qed.

Lemma kelly_bet_monotone_in_edge_witness :
  exists r1 r2,
    Kelly.calculate_kelly_bet 0 (1 # 2) 1000 (1 # 4) (1 # 100) = Some r1 /\
    Kelly.calculate_kelly_bet 0 (1 # 2) 1000 (1 # 4) (5 # 100) = Some r2 /\
    r1 <= r2.
Proof.
  apply kelly_bet_monotone_in_edge; discriminate.
Defined.



(* ------------------------------------------------------------------------- *)
(** * Further properties of the fee calculator *)

Ltac case_tiers v :=
  repeat match goal with
  | |- context [py_ge v ?b] =>
      let E := fresh "E" in
      destruct (py_ge v b) eqn:E;
      [apply py_ge_true in E | apply py_ge_false in E]
  end.

Lemma arb_net_profit_eq self yes_price no_price quantity :
  Fee.arb_net_profit
    (Fee.result (Fee.calculate_arbitrage_profit yes_price no_price quantity)
       self) ==
  quantity * (1 - (yes_price + no_price) - 2 * Fee.base_fee_rate self).
Proof. unfold_methods. ring. Qed.

Lemma arb_is_profitable_eq self yes_price no_price quantity :
  let r := Fee.result (Fee.calculate_arbitrage_profit yes_price no_price
                         quantity) self in
  Fee.arb_is_profitable r = py_gt (Fee.arb_net_profit r) 0.
Proof. unfold_methods. reflexivity. Qed.

Lemma net_profit_eq self buy_price sell_price quantity :
  Fee.net_profit
    (Fee.result (Fee.calculate_net_profit buy_price sell_price quantity) self)
  == quantity * (sell_price - buy_price - (3 # 2) * Fee.base_fee_rate self).
Proof. unfold_methods. ring. Qed.

Lemma low_tier_rate v : v < 2500 -> Fee.base_fee_rate (Fee.new v) = 7 # 100.
Proof.
  intro Hv. rewrite new_rate.
  replace (py_ge v 25000) with false by (symmetry; apply py_ge_false; lra).
  replace (py_ge v 10000) with false by (symmetry; apply py_ge_false; lra).
  replace (py_ge v 2500) with false by (symmetry; apply py_ge_false; lra).
  reflexivity.
Qed.

(** A larger 30-day volume never gives a higher base fee rate. *)
Theorem fee_rate_antitone (v1 v2 : Q) :
  v1 <= v2 -> Fee.base_fee_rate (Fee.new v2) <= Fee.base_fee_rate (Fee.new v1).
Proof.
  intro H. rewrite !new_rate. case_tiers v1; case_tiers v2;
  first [lra | unfold Qle; simpl; lia].
Qed.

Lemma fee_rate_antitone_witness :
  Fee.base_fee_rate (Fee.new 30000) <= Fee.base_fee_rate (Fee.new 3000).
Proof. apply fee_rate_antitone. discriminate. Defined.

(** [calculate_trade_fee] is additive in the quantity: splitting an order in
    two does not change the total fee. *)
Theorem trade_fee_additive (self : Fee.FeeCalculator) (price q1 q2 : Q)
    (is_maker : bool) :
  Fee.result (Fee.calculate_trade_fee price (q1 + q2) is_maker) self ==
    Fee.result (Fee.calculate_trade_fee price q1 is_maker) self +
    Fee.result (Fee.calculate_trade_fee price q2 is_maker) self.
Proof. unfold_methods. destruct is_maker; ring. Qed.

(** [calculate_round_trip_fee] charges 1.5 times the base rate on the
    quantity in total, and reports a sell rate that is half the buy rate. *)
Theorem round_trip_fee_total (self : Fee.FeeCalculator)
    (buy_price sell_price quantity : Q) :
  let r := Fee.result (Fee.calculate_round_trip_fee buy_price sell_price
                         quantity) self in
  Fee.total_fees r == (3 # 2) * quantity * Fee.base_fee_rate self /\
  Fee.fee_rate_buy r = Fee.base_fee_rate self /\
  Fee.fee_rate_sell r == Fee.fee_rate_buy r / 2.
Proof. unfold_methods. repeat split; try reflexivity; field. Qed.





(** A YES/NO pair whose prices sum to 1 or more is never reported
    profitable by a calculator built from any volume (non-negative
    quantity). *)
Theorem arbitrage_overpriced_unprofitable (v yes_price no_price quantity : Q) :
  0 <= quantity -> 1 <= yes_price + no_price ->
  Fee.arb_is_profitable
    (Fee.result (Fee.calculate_arbitrage_profit yes_price no_price quantity)
       (Fee.new v)) = false.
Proof.
  intros Hq Hs.
  pose proof (new_rate_nonneg v) as Hr.
  rewrite arb_is_profitable_eq.
  destruct (py_gt _ 0) eqn:E; [|reflexivity].
  apply py_gt_true in E. rewrite arb_net_profit_eq in E.
  assert (quantity * (1 - (yes_price + no_price) -
            2 * Fee.base_fee_rate (Fee.new v)) <= 0) by nra.
  lra.
Qed.

Lemma arbitrage_overpriced_unprofitable_witness :
  Fee.arb_is_profitable
    (Fee.result (Fee.calculate_arbitrage_profit (52 # 100) (50 # 100) 100)
       (Fee.new 0)) = false.
Proof. apply arbitrage_overpriced_unprofitable; discriminate. Defined.

(** [BotConfig.get_fee_tier] (the percentage the bot prints) is always 100
    times the base rate of [FeeCalculator] built from the same volume. *)
Theorem fee_tier_matches_calculator (VOLUME_30D : Q) :
  get_fee_tier VOLUME_30D == 100 * Fee.base_fee_rate (Fee.new VOLUME_30D).
Proof.
  rewrite new_rate. unfold get_fee_tier.
  destruct (py_ge VOLUME_30D 25000), (py_ge VOLUME_30D 10000),
           (py_ge VOLUME_30D 2500); reflexivity.
Qed.

(* ------------------------------------------------------------------------- *)
(** * Properties of the callers *)

Lemma py_min_list_in x xs : In (ProbArb.py_min_list x xs) (x :: xs).
Proof.
  revert x. induction xs as [|y ys IH]; intro x; simpl; [left; reflexivity|].
  unfold ProbArb.py_min_list in *. simpl.
  destruct (IH (py_min x y)) as [H|H].
  - rewrite <- H. unfold py_min. destruct (Qlt_le_dec y x); simpl; auto.
  - right. right. exact H.
Qed.

Lemma py_min_list_le x xs : forall z, In z (x :: xs) -> ProbArb.py_min_list x xs <= z.
Proof.
  revert x. induction xs as [|y ys IH]; intros x z Hz.
  - destruct Hz as [<-|[]]. apply Qle_refl.
  - unfold ProbArb.py_min_list in *. simpl.
    destruct Hz as [->|[->|Hz]].
    + apply Qle_trans with (py_min z y); [apply IH; left; reflexivity|].
      unfold py_min. destruct (Qlt_le_dec y z); lra.
    + apply Qle_trans with (py_min x z); [apply IH; left; reflexivity|].
      unfold py_min. destruct (Qlt_le_dec z x); lra.
    + apply IH. right. exact Hz.
Qed.

Lemma best_ask_spec a asks :
  exists b, In b (a :: asks) /\
    ProbArb.best_ask (Some (a :: asks)) = Some (fst b / 100) /\
    (forall c, In c (a :: asks) -> fst b / 100 <= fst c / 100).
Proof.
  simpl.
  destruct (in_map_iff fst (a :: asks) (ProbArb.py_min_list (fst a) (map fst asks)))
    as [[b [Hb Hin]] _]; [exact (py_min_list_in (fst a) (map fst asks))|].
  exists b. split; [exact Hin|]. rewrite Hb. split; [reflexivity|].
  intros c Hc. unfold Qdiv. apply Qmult_le_compat_r; [|discriminate].
  apply py_min_list_le.
  change (fst a :: map fst asks) with (map fst (a :: asks)).
  apply in_map. exact Hc.
Qed.

(** [get_best_prices] gives [(None, None)] exactly when one side of the
    orderbook is missing, [null] or empty; otherwise each price is the lowest
    ask of its side, converted from cents to dollars. *)
Theorem best_prices_lowest_asks (ob : ProbArb.Orderbook) :
  (ProbArb.get_best_prices ob = None <->
   (ProbArb.yes ob = None \/ ProbArb.yes ob = Some [] \/
    ProbArb.no ob = None \/ ProbArb.no ob = Some [])) /\
  (forall yes_price no_price,
   ProbArb.get_best_prices ob = Some (yes_price, no_price) ->
   exists ys ns ya na,
     ProbArb.yes ob = Some ys /\ ProbArb.no ob = Some ns /\
     In ya ys /\ yes_price = fst ya / 100 /\
     (forall c, In c ys -> yes_price <= fst c / 100) /\
     In na ns /\ no_price = fst na / 100 /\
     (forall c, In c ns -> no_price <= fst c / 100)).
Proof.
  destruct ob as [[[|a ys]|] [[|b ns]|]]; unfold ProbArb.get_best_prices; cbn;
    (split; [split; [intro H; try discriminate; auto 6 |
                     intros [H|[H|[H|H]]]; try discriminate; reflexivity]
            | intros yp np H; try discriminate]).
  destruct (best_ask_spec a ys) as [ya [Hya [Ea Ha]]].
  destruct (best_ask_spec b ns) as [nb [Hnb [Eb Hb]]].
  cbn in Ea, Eb.
  assert (Ey : yp = fst ya / 100) by congruence.
  assert (En : np = fst nb / 100) by congruence.
  subst yp np.
  exists (a :: ys), (b :: ns), ya, nb. repeat split; auto.
Qed.

Lemma best_prices_lowest_asks_witness :
  ProbArb.get_best_prices
    (ProbArb.mkOrderbook (Some [(40, 1); (35, 2)]) (Some [(55, 3)]))
    = Some (35 / 100, 55 / 100) /\
  exists ys ns ya na,
    Some [(40, 1); (35, 2)] = Some ys /\ Some [(55, 3)] = Some ns /\
    In ya ys /\ 35 / 100 = fst ya / 100 /\
    (forall c, In c ys -> 35 / 100 <= fst c / 100) /\
    In na ns /\ 55 / 100 = fst na / 100 /\
    (forall c, In c ns -> 55 / 100 <= fst c / 100).
Proof.
  split; [reflexivity|].
  apply (proj2 (best_prices_lowest_asks
    (ProbArb.mkOrderbook (Some [(40, 1); (35, 2)]) (Some [(55, 3)])))).
  reflexivity.
Defined.



(** The backtest's simulated market (YES and NO both at 0.51) never counts as
    an opportunity, whatever the market volume and whatever volume the
    calculator was built with: its simulated profit is never positive. *)
Theorem backtest_never_profitable (volume_30d volume : Q) :
  Backtest.simulate_market (Fee.new volume_30d) volume = None.
Proof.
  unfold Backtest.simulate_market.
  destruct (py_gt volume 100); [|reflexivity]. cbv zeta.
  destruct (10 <=? _)%Z eqn:Eq; [|reflexivity].
  apply Z.leb_le in Eq.
  destruct (py_gt _ 0) eqn:E; [|reflexivity].
  exfalso. apply py_gt_true in E. rewrite arb_net_profit_eq in E.
  pose proof (new_rate_nonneg volume_30d) as Hr.
  set (q := inject_Z _) in E.
  assert (Hq : 10 <= q).
  { subst q. change 10 with (inject_Z 10). rewrite <- Zle_Qle. exact Eq. }
  set (r := Fee.base_fee_rate (Fee.new volume_30d)) in *.
  assert (q * (1 - ((51 # 100) + (51 # 100)) - 2 * r) <= 0) by nra.
  lra.
Qed.

Lemma py_int_le x : 0 <= x -> inject_Z (py_int x) <= x.
Proof.
  destruct x as [a d]. unfold py_int, Qle. cbn. intro H.
  pose proof (Z.mul_quot_le a (Zpos d) ltac:(lia) ltac:(lia)). lia.
Qed.

Lemma py_int_zero x : x == 0 -> py_int x = 0%Z.
Proof.
  destruct x as [a d]. unfold py_int, Qeq. cbn. intro H.
  replace a with 0%Z by lia. reflexivity.
Qed.

Lemma bot_v3_step_buy cfg fc p losses n c :
  BotV3.step cfg fc p losses = Some (BotV3.Buy n c) ->
  exists bet,
    Kelly.get_bet_size (BotV3.EDGE cfg) p (BotV3.BANKROLL cfg) (25 # 100)
      = Some bet /\
    0 < p /\ n = py_int (bet / p) /\ (0 < n)%Z /\
    (losses < BotV3.MAX_CONSECUTIVE_LOSSES cfg)%Z /\
    BotV3.MIN_NET_PROFIT cfg <=
      Fee.net_profit (Fee.result (Fee.calculate_net_profit p
        (py_min (p * (1 + BotV3.TARGET_RETURN_PCT cfg / 100)) (99 # 100))
        (inject_Z n)) fc) /\
    c = py_int (p * 100).
Proof.
  unfold BotV3.step. cbv zeta.
  destruct (Kelly.get_kelly_fraction _ _ _); [|discriminate].
  destruct (Kelly.get_bet_size _ _ _ _) as [bet|] eqn:Eb; [|discriminate].
  destruct (py_gt p 0) eqn:Ep; [|discriminate].
  destruct ((0 <? py_int (bet / p))%Z && _) eqn:Ec; [|discriminate].
  apply andb_true_iff in Ec as [E1 E2].
  apply Z.ltb_lt in E1, E2.
  destruct (py_ge _ _) eqn:Em; [|discriminate].
  intro H. injection H as <- <-.
  apply py_ge_true in Em. apply py_gt_true in Ep.
  exists bet. repeat split; assumption.
Qed.

(** The decision step of bot_v3 ignores [MAX_KELLY_FRACTION] (the wrappers
    are called with their default cap 0.25), and a buy it decides has a
    positive quantity, a price in (0,1), a cost [n * p] of at most
    [0.25 * BANKROLL] (non-negative bankroll), a net profit of at least
    [MIN_NET_PROFIT], and happens only below the consecutive-loss limit. *)
Theorem bot_v3_buy_bounded (cfg : BotV3.Config) (fc : Fee.FeeCalculator)
    (p : Q) (losses : Z) :
  (forall x,
     BotV3.step cfg fc p losses =
     BotV3.step (BotV3.mkConfig (BotV3.BANKROLL cfg) (BotV3.EDGE cfg) x
                   (BotV3.MIN_NET_PROFIT cfg) (BotV3.TARGET_RETURN_PCT cfg)
                   (BotV3.MAX_CONSECUTIVE_LOSSES cfg)) fc p losses) /\
  (0 <= BotV3.BANKROLL cfg -> forall n c,
   BotV3.step cfg fc p losses = Some (BotV3.Buy n c) ->
   (0 < n)%Z /\ (losses < BotV3.MAX_CONSECUTIVE_LOSSES cfg)%Z /\
   0 < p < 1 /\
   inject_Z n * p <= (25 # 100) * BotV3.BANKROLL cfg /\
   BotV3.MIN_NET_PROFIT cfg <=
     Fee.net_profit (Fee.result (Fee.calculate_net_profit p
       (py_min (p * (1 + BotV3.TARGET_RETURN_PCT cfg / 100)) (99 # 100))
       (inject_Z n)) fc) /\
   c = py_int (p * 100)).
Proof.
  split; [intro x; destruct cfg; reflexivity|].
  intros HB n c H.
  destruct (bot_v3_step_buy _ _ _ _ _ _ H)
    as [bet [Eb [Hp [En [Hn [Hl [Hm Hc]]]]]]].
  unfold Kelly.get_bet_size in Eb.
  assert (Hmf : 0 <= 25 # 100) by lra.
  destruct (kelly_bet_bounds _ _ _ _ _ _ HB Hmf Eb) as [Hb0 Hb1].
  assert (Hp1 : p < 1).
  { destruct (Qlt_le_dec p 1) as [L|L]; [exact L|].
    rewrite kelly_out_of_interval in Eb by (right; exact L).
    injection Eb as <-. exfalso.
    rewrite py_int_zero in En.
    - lia.
    - unfold Qdiv. ring. }
  assert (Hdiv : 0 <= bet / p).
  { unfold Qdiv. apply Qmult_le_0_compat; [exact Hb0|].
    apply Qlt_le_weak, Qinv_lt_0_compat. exact Hp. }
  pose proof (py_int_le _ Hdiv) as Hle. rewrite <- En in Hle.
  repeat split; try assumption.
  apply Qle_trans with bet; [|exact Hb1].
  apply Qle_trans with (bet / p * p).
  - apply Qmult_le_compat_r; [exact Hle | lra].
  - assert (E : bet / p * p == bet) by (field; intro E; lra).
    rewrite E. apply Qle_refl.
Qed.

Lemma bot_v3_buy_bounded_witness :
  BotV3.step (BotV3.mkConfig 1000 (5 # 100) (10 # 100) (50 # 100) 10 3)
    (Fee.new 100000) (60 # 100) 0 = Some (BotV3.Buy 125 60) /\
  0 <= 1000 /\
  inject_Z 125 * (60 # 100) <= (25 # 100) * 1000.
Proof.
  split; [vm_compute; reflexivity|]. split; [discriminate|].
  destruct (proj2 (bot_v3_buy_bounded
    (BotV3.mkConfig 1000 (5 # 100) (10 # 100) (50 # 100) 10 3)
    (Fee.new 100000) (60 # 100) 0) ltac:(discriminate) 125%Z 60%Z
    ltac:(vm_compute; reflexivity)) as [_ [_ [_ [H _]]]].
  exact H.
Defined.

(** With a 30-day volume below 2500 (the 7% tier, the configured default
    [VOLUME_30D = 0]), a target return of at most 10% (the default) and a
    non-negative [MIN_NET_PROFIT], the decision step of bot_v3 never buys:
    the target gain per contract is below the 10.5% round-trip fee. *)
Theorem bot_v3_no_buy_low_tier (cfg : BotV3.Config) (v p : Q) (losses : Z) :
  v < 2500 -> 0 <= BotV3.TARGET_RETURN_PCT cfg <= 10 ->
  0 <= BotV3.MIN_NET_PROFIT cfg ->
  forall n c, BotV3.step cfg (Fee.new v) p losses <> Some (BotV3.Buy n c).
Proof.
  intros Hv [HT0 HT1] HM n c H.
  destruct (bot_v3_step_buy _ _ _ _ _ _ H)
    as [bet [_ [Hp [_ [Hn [_ [Hm _]]]]]]].
  rewrite net_profit_eq, (low_tier_rate v Hv) in Hm.
  set (T := BotV3.TARGET_RETURN_PCT cfg) in *.
  set (t := py_min (p * (1 + T / 100)) (99 # 100)) in *.
  assert (Ht1 : t <= p * (1 + T / 100)).
  { subst t. rewrite py_min_spec. apply Q.le_min_l. }
  assert (Ht2 : t <= 99 # 100).
  { subst t. rewrite py_min_spec. apply Q.le_min_r. }
  assert (Hd : t - p - (3 # 2) * (7 # 100) < 0).
  { destruct (Qlt_le_dec p 1) as [L|L]; [|lra].
    assert (p * (T / 100) <= 1 # 10).
    { setoid_replace (T / 100) with (T * (1 # 100)) by reflexivity.
      assert (0 <= (1 - p) * T) by (apply Qmult_le_0_compat; lra).
      lra. }
    lra. }
  assert (Hn' : 0 < inject_Z n).
  { change 0 with (inject_Z 0). rewrite <- Zlt_Qlt. exact Hn. }
  assert (inject_Z n * (t - p - (3 # 2) * (7 # 100)) < 0) by nra.
  lra.
Qed.

Lemma bot_v3_no_buy_low_tier_witness :
  BotV3.step (BotV3.mkConfig (2940 # 100) (5 # 100) (10 # 100) (50 # 100) 10 3)
    (Fee.new 0) (60 # 100) 0 <> Some (BotV3.Buy 1 60).
Proof.
  apply bot_v3_no_buy_low_tier; [reflexivity | split; discriminate |
                                 discriminate].
Defined.
